(** * hwpe-stream: sim/gen_stimuli.py

    A shallow embedding of the stimulus generator script and the
    properties of its command line handling and of the file it writes.

    The script is Python 3 code: [int], [hex], [range], [print],
    [sys.exit], [open] and [random.randint] are modelled after the
    behaviour the language documents for them.  Strings are strings of
    8-bit characters; characters above 127 are neither digits nor white
    space for [int].  The interpreter's limit on the length of a decimal
    string handed to [int] is not modelled.  A file holds the text that
    was written to it, character for character, as on a POSIX system; a
    write to an open file does not fail. *)

From Stdlib Require Import ZArith Ascii String List Bool Lia.
From stdpp Require Import base gmap strings list fin_maps.

Open Scope string_scope.
Open Scope Z_scope.

(** ** Python strings *)

Module PyStr.

Definition newline : ascii := ascii_of_nat 10.

(** The white space [int] skips: tab, line feed, vertical tab, form feed,
    carriage return, the four separators 0x1c to 0x1f, and the blank. *)
Definition is_space (c : ascii) : bool :=
  let n := nat_of_ascii c in
  ((9 <=? n)%nat && (n <=? 13)%nat)
  || ((28 <=? n)%nat && (n <=? 31)%nat)
  || (n =? 32)%nat.

Definition is_digit (c : ascii) : bool :=
  let n := nat_of_ascii c in (48 <=? n)%nat && (n <=? 57)%nat.

Definition digit_value (c : ascii) : Z := Z.of_nat (nat_of_ascii c) - 48.

Fixpoint rev_append (s acc : string) : string :=
  match s with
  | EmptyString => acc
  | String c r => rev_append r (String c acc)
  end.

Definition rev (s : string) : string := rev_append s EmptyString.

Fixpoint lstrip (s : string) : string :=
  match s with
  | EmptyString => EmptyString
  | String c r => if is_space c then lstrip r else s
  end.

Definition rstrip (s : string) : string := rev (lstrip (rev s)).

Definition strip (s : string) : string := rstrip (lstrip s).

(** [s[k:]] for [k >= 0]: the empty string when [k] is past the end. *)
Fixpoint slice_from (k : nat) (s : string) : string :=
  match k, s with
  | O, _ => s
  | S _, EmptyString => EmptyString
  | S k', String _ r => slice_from k' r
  end.

(** The lines of a text, each without its line terminator, the way
    reading the file line by line yields them: a last line that lacks
    its terminator still counts. *)
Fixpoint split_lines (s : string) : list string :=
  match s with
  | EmptyString => []
  | String c r =>
      if Ascii.eqb c newline then EmptyString :: split_lines r
      else match split_lines r with
           | [] => [String c EmptyString]
           | l :: ls => String c l :: ls
           end
  end.

Fixpoint all_chars (p : ascii -> bool) (s : string) : bool :=
  match s with
  | EmptyString => true
  | String c r => p c && all_chars p r
  end.

End PyStr.

(** ** The builtins [int] and [hex] *)

Module Builtins.
Import PyStr.

(** [int(s)] in base ten: white space around the literal is dropped, one
    sign may lead, and single underscores may sit between digits. *)
Inductive scan_state := AtStart | AfterDigit | AfterUnderscore.

Fixpoint scan_decimal (st : scan_state) (acc : Z) (s : string) : option Z :=
  match s with
  | EmptyString =>
      match st with AfterDigit => Some acc | _ => None end
  | String c r =>
      if is_digit c then scan_decimal AfterDigit (10 * acc + digit_value c) r
      else if Ascii.eqb c "_"%char then
        match st with
        | AfterDigit => scan_decimal AfterUnderscore acc r
        | _ => None
        end
      else None
  end.

Definition int (s : string) : option Z :=
  match strip s with
  | String "+" r => scan_decimal AtStart 0 r
  | String "-" r => Z.opp <$> scan_decimal AtStart 0 r
  | r => scan_decimal AtStart 0 r
  end.

Definition hex_digit (d : Z) : ascii :=
  match d with
  | 0 => "0" | 1 => "1" | 2 => "2" | 3 => "3"
  | 4 => "4" | 5 => "5" | 6 => "6" | 7 => "7"
  | 8 => "8" | 9 => "9" | 10 => "a" | 11 => "b"
  | 12 => "c" | 13 => "d" | 14 => "e" | _ => "f"
  end%char.

(** The digits of [n >= 0] in base sixteen, most significant first,
    pushed in front of [acc]; [fuel] bounds the number of digits. *)
Fixpoint hex_digits_aux (fuel : nat) (n : Z) (acc : string) : string :=
  match fuel with
  | O => acc
  | S fuel' =>
      let acc' := String (hex_digit (n mod 16)) acc in
      if n / 16 =? 0 then acc' else hex_digits_aux fuel' (n / 16) acc'
  end.

Definition hex_digits (n : Z) : string :=
  hex_digits_aux (S (Z.to_nat (Z.log2 n))) n EmptyString.

(** [hex(x)]: ["0x"] and the digits, after a minus sign when [x < 0]. *)
Definition hex (x : Z) : string :=
  if x <? 0 then "-0x" +:+ hex_digits (- x) else "0x" +:+ hex_digits x.

(** [range(n)]: empty when [n <= 0]. *)
Definition range (n : Z) : list Z := map Z.of_nat (seq 0 (Z.to_nat n)).

End Builtins.

(** ** The world the script runs in, and its effects *)

Module Py.
Import PyStr Builtins.

Inductive Exn :=
| ValueError
| IndexError
| OSError
| SystemExit (code : Z).

(** [fs] maps a path to the text stored there; [writable] is the
    environment's answer to opening a path for writing; [opened] holds
    the handles not yet closed; [stdout] is what was printed so far.
    [random.randint] reads the entropy source [entropy] at position
    [drawn]. *)
Record World := mkWorld {
  fs : gmap string string;
  writable : string -> bool;
  opened : gset string;
  stdout : string;
  entropy : nat -> Z;
  drawn : nat
}.

Inductive Result (A : Type) :=
| Ok (a : A)
| Raise (e : Exn).
Arguments Ok {A} a.
Arguments Raise {A} e.

Definition M (A : Type) : Type := World -> Result A * World.

Definition ret {A} (a : A) : M A := fun w => (Ok a, w).

Definition raise {A} (e : Exn) : M A := fun w => (Raise e, w).

Definition bind {A B} (m : M A) (k : A -> M B) : M B :=
  fun w =>
    match m w with
    | (Ok a, w') => k a w'
    | (Raise e, w') => (Raise e, w')
    end.

(** [try m finally h]: [h] runs on both ways out of [m]. *)
Definition finally {A} (m : M A) (h : M unit) : M A :=
  fun w =>
    match m w with
    | (r, w') =>
        match h w' with
        | (Ok _, w'') => (r, w'')
        | (Raise e, w'') => (Raise e, w'')
        end
    end.

Notation "x <- m ;; k" := (bind m (fun x => k))
  (at level 100, m at next level, right associativity).
Notation "m ;;; k" := (bind m (fun _ => k))
  (at level 100, right associativity).

Fixpoint for_each {A} (xs : list A) (body : A -> M unit) : M unit :=
  match xs with
  | [] => ret tt
  | x :: r => body x ;;; for_each r body
  end.

(** [print(s)] *)
Definition print (s : string) : M unit :=
  fun w =>
    (Ok tt,
     mkWorld (fs w) (writable w) (opened w)
             (stdout w +:+ s +:+ String newline EmptyString)
             (entropy w) (drawn w)).

(** [sys.exit(code)] *)
Definition sys_exit {A} (code : Z) : M A := raise (SystemExit code).

(** [int(s)] as the script calls it: [ValueError] on a rejected string. *)
Definition py_int (s : string) : M Z :=
  match int s with
  | Some z => ret z
  | None => raise ValueError
  end.

(** [l[i]] *)
Definition getitem (l : list string) (i : nat) : M string :=
  match l !! i with
  | Some x => ret x
  | None => raise IndexError
  end.

(** [open(path, 'w')]: the file is created or emptied, and the handle
    is the path. *)
Definition open_w (path : string) : M string :=
  fun w =>
    if writable w path then
      (Ok path,
       mkWorld (<[path := EmptyString]> (fs w)) (writable w)
               ({[path]} ∪ opened w) (stdout w) (entropy w) (drawn w))
    else (Raise OSError, w).

(** [f.write(s)]: the text goes to the end of what [f] holds. *)
Definition write (f : string) (s : string) : M unit :=
  fun w =>
    if decide (f ∈ opened w) then
      (Ok tt,
       mkWorld (<[f := default EmptyString (fs w !! f) +:+ s]> (fs w))
               (writable w) (opened w) (stdout w) (entropy w) (drawn w))
    else (Raise ValueError, w).

Definition close (f : string) : M unit :=
  fun w =>
    (Ok tt,
     mkWorld (fs w) (writable w) (opened w ∖ {[f]}) (stdout w)
             (entropy w) (drawn w)).

(** [with open(path, 'w') as f: body] *)
Definition with_open_w {A} (path : string) (body : string -> M A) : M A :=
  f <- open_w path ;; finally (body f) (close f).

(** [random.randint(a, b)]: some integer of [a..b], picked by the entropy
    source; [ValueError] on an empty range. *)
Definition randint (a b : Z) : M Z :=
  fun w =>
    if b <? a then (Raise ValueError, w)
    else
      (Ok (a + entropy w (drawn w) mod (b - a + 1)),
       mkWorld (fs w) (writable w) (opened w) (stdout w)
               (entropy w) (S (drawn w))).

End Py.

(** ** The script *)

Module GenStimuli.
Import PyStr Builtins Py.

Definition usage : string :=
  "Usage: gen_stimuli.py RESERVOIR_SIZE FILE_NAME".

(** Lines 5 to 10: the two names the rest of the script uses. *)
Definition parse_args (argv : list string) : M (Z * string) :=
  if (length argv =? 3)%nat then
    a1 <- getitem argv 1 ;;
    RESERVOIR_SIZE <- py_int a1 ;;
    FILE_NAME <- getitem argv 2 ;;
    ret (RESERVOIR_SIZE, FILE_NAME)
  else
    print usage ;;;
    sys_exit 1.

(** Line 17, the body of the loop. *)
Definition write_stimulus (f : string) : M unit :=
  v <- randint 0 (2 ^ 32 - 1) ;;
  write f (slice_from 2 (hex v) +:+ String newline EmptyString).

(** Lines 14 to 17. *)
Definition generate (RESERVOIR_SIZE : Z) (FILE_NAME : string) : M unit :=
  with_open_w FILE_NAME (fun f =>
    for_each (range RESERVOIR_SIZE) (fun _ => write_stimulus f)).

Definition main (argv : list string) : M unit :=
  args <- parse_args argv ;;
  generate (fst args) (snd args).

(** The exit status of the process: 0 when the script runs to its end,
    the code of [sys.exit], and 1 for any other exception that nothing
    caught. *)
Definition exit_status {A} (r : Result A) : Z :=
  match r with
  | Ok _ => 0
  | Raise (SystemExit code) => code
  | Raise _ => 1
  end.

Definition run (argv : list string) (w : World) : Z * World :=
  let (r, w') := main argv w in (exit_status r, w').

(** The values the next [k] calls of [randint 0 (2^32-1)] return in [w],
    in the order of the calls. *)
Definition stimuli (w : World) (k : nat) : list Z :=
  map (fun i => entropy w (drawn w + i)%nat mod 2 ^ 32) (seq 0 k).

(** [k] calls of [random.randint(0, 2**32-1)], one after the other. *)
Fixpoint draw (k : nat) : M (list Z) :=
  match k with
  | O => ret []
  | S k' =>
      v <- randint 0 (2 ^ 32 - 1) ;;
      vs <- draw k' ;;
      ret (v :: vs)
  end.

(** The text of one line of the file, without its terminator. *)
Definition line_of (v : Z) : string := slice_from 2 (hex v).

(** The text of a file of the given lines, each with its terminator. *)
Fixpoint unlines (ls : list string) : string :=
  match ls with
  | [] => EmptyString
  | l :: r => l +:+ String newline (unlines r)
  end.

End GenStimuli.

(** ** What the file format asks of a line *)

Module Format.
Import PyStr.

(** The character class [[0-9a-f]]. *)
Definition is_hex_lower (c : ascii) : bool :=
  let n := nat_of_ascii c in
  ((48 <=? n)%nat && (n <=? 57)%nat) || ((97 <=? n)%nat && (n <=? 102)%nat).

Definition hex_char_value (c : ascii) : Z :=
  let n := Z.of_nat (nat_of_ascii c) in
  if n <=? 57 then n - 48 else n - 87.

Fixpoint hex_value_from (acc : Z) (s : string) : Z :=
  match s with
  | EmptyString => acc
  | String c r => hex_value_from (16 * acc + hex_char_value c) r
  end.

(** A line matches [^[0-9a-f]+$]. *)
Definition matches_hex_line (s : string) : bool :=
  match s with
  | EmptyString => false
  | _ => all_chars is_hex_lower s
  end.

(** The number a line denotes in base sixteen, when it matches. *)
Definition parse_hex (s : string) : option Z :=
  if matches_hex_line s then Some (hex_value_from 0 s) else None.

Definition not_newline (c : ascii) : bool := negb (Ascii.eqb c newline).

(** A digit string with no digit to spare: ["0"] itself, or one that
    does not start with the digit zero. *)
Definition no_leading_zero (s : string) : Prop :=
  s = "0" ∨ ∃ c r, s = String c r ∧ c ≠ "0"%char.

Definition starts_with_0x (s : string) : bool :=
  match s with
  | String "0" (String "x" _) => true
  | _ => false
  end.

End Format.

(** ** The worlds a run ends in *)

Module Outcome.
Import PyStr Builtins Py GenStimuli.

(** After the usage message. *)
Definition after_usage (w : World) : World :=
  mkWorld (fs w) (writable w) (opened w)
          (stdout w +:+ usage +:+ String newline EmptyString)
          (entropy w) (drawn w).

(** After [k] stimuli went to [path] and the file was closed. *)
Definition after_generate (w : World) (path : string) (k : nat) : World :=
  mkWorld (<[path := unlines (map line_of (stimuli w k))]> (fs w))
          (writable w) (({[path]} ∪ opened w) ∖ {[path]}) (stdout w)
          (entropy w) (drawn w + k).

End Outcome.

(** ** Two worlds to run the script in *)

Module Sample.
Import Py.

Definition source (i : nat) : Z := Z.of_nat i * 2654435761 + 305419896.

(** Nothing on disk, every path writable. *)
Definition fresh : World :=
  mkWorld ∅ (λ _, true) ∅ EmptyString source 0.

(** A file is already there, and some entropy was used before. *)
Definition used : World :=
  mkWorld {[ "out.txt" := "deadbeef"; "other.txt" := "kept" ]}
          (λ _, true) ∅ EmptyString source 5.

(** The output path cannot be opened, and the handle of another file is
    open. *)
Definition locked : World :=
  mkWorld {[ "out.txt" := "deadbeef" ]}
          (λ p, negb (String.eqb p "out.txt"))
          {[ "log.txt" ]} EmptyString source 0.

End Sample.

Import PyStr Builtins Py GenStimuli Format Outcome.

(** Settles a goal about a digit [d] once [H] lists its sixteen values. *)
Ltac each_digit H :=
  repeat (destruct H as [-> | H]; [vm_compute; try done; auto |]);
  try (subst; vm_compute; try done; auto).

(** ** Facts about strings *)

Section StringFacts.

Lemma append_nil (t : string) : EmptyString +:+ t = t.
Proof. reflexivity. Qed.

Lemma append_nil_cons (c : ascii) (t : string) :
  String c EmptyString +:+ t = String c t.
Proof. reflexivity. Qed.

Lemma append_cons (c : ascii) (s t : string) :
  String c s +:+ t = String c (s +:+ t).
Proof. reflexivity. Qed.

Lemma append_empty_r (s : string) : s +:+ EmptyString = s.
Proof.
  induction s as [|c s IH]; [reflexivity|]. by rewrite append_cons, IH.
Qed.

Lemma append_assoc (s t u : string) : (s +:+ t) +:+ u = s +:+ (t +:+ u).
Proof.
  induction s as [|c s IH]; [reflexivity|]. by rewrite !append_cons, IH.
Qed.

Lemma length_append (s t : string) :
  String.length (s +:+ t) = (String.length s + String.length t)%nat.
Proof.
  induction s as [|c s IH]; [reflexivity|].
  rewrite append_cons. simpl. by rewrite IH.
Qed.


Lemma all_chars_impl (p q : ascii -> bool) (s : string) :
  (∀ c, p c = true → q c = true) →
  all_chars p s = true → all_chars q s = true.
Proof.
  intros Hpq. induction s as [|c s IH]; simpl; [done|].
  rewrite !andb_true_iff. intros [Hc Hs]. split; auto.
Qed.

Lemma hex_lower_not_newline (c : ascii) :
  is_hex_lower c = true → not_newline c = true.
Proof.
  unfold not_newline. destruct (Ascii.eqb_spec c newline) as [->|]; [|done].
  vm_compute. discriminate.
Qed.

(** A line without a line feed, followed by its terminator, is split off
    as it is. *)
Lemma split_lines_cons (l rest : string) :
  all_chars not_newline l = true →
  split_lines (l +:+ String newline rest) = l :: split_lines rest.
Proof.
  induction l as [|c l IH].
  - intros _. reflexivity.
  - intros H. simpl in H. apply andb_true_iff in H as [Hc Hl].
    unfold not_newline in Hc. apply negb_true_iff in Hc.
    rewrite append_cons. simpl. rewrite Hc.
    by rewrite (IH Hl).
Qed.

Lemma split_lines_unlines (ls : list string) :
  Forall (λ l, all_chars not_newline l = true) ls →
  split_lines (unlines ls) = ls.
Proof.
  induction 1 as [|l ls Hl _ IH]; simpl; [reflexivity|].
  by rewrite split_lines_cons, IH.
Qed.

End StringFacts.

(** ** Facts about [hex] *)

Section HexFacts.

Lemma digit_cases (d : Z) :
  0 ≤ d < 16 →
  d = 0 ∨ d = 1 ∨ d = 2 ∨ d = 3 ∨ d = 4 ∨ d = 5 ∨ d = 6 ∨ d = 7 ∨
  d = 8 ∨ d = 9 ∨ d = 10 ∨ d = 11 ∨ d = 12 ∨ d = 13 ∨ d = 14 ∨ d = 15.
Proof. lia. Qed.

Lemma hex_digit_lower (d : Z) :
  0 ≤ d < 16 → is_hex_lower (hex_digit d) = true.
Proof. intros H%digit_cases. each_digit H. Qed.

Lemma hex_digit_value (d : Z) :
  0 ≤ d < 16 → hex_char_value (hex_digit d) = d.
Proof. intros H%digit_cases. each_digit H. Qed.

Lemma hex_digit_nonzero (d : Z) :
  0 < d < 16 → hex_digit d ≠ "0"%char.
Proof.
  intros H. assert (H' : 0 ≤ d < 16) by lia.
  apply digit_cases in H'. destruct H' as [-> | H']; [lia|].
  each_digit H'.
Qed.

Lemma hex_char_value_range (c : ascii) :
  is_hex_lower c = true → 0 ≤ hex_char_value c < 16.
Proof.
  unfold is_hex_lower, hex_char_value.
  rewrite orb_true_iff, !andb_true_iff, !Nat.leb_le.
  destruct (Z.leb_spec (Z.of_nat (nat_of_ascii c)) 57); lia.
Qed.

Lemma hex_value_from_snoc (a : Z) (s : string) (c : ascii) :
  hex_value_from a (s +:+ String c EmptyString)
  = 16 * hex_value_from a s + hex_char_value c.
Proof.
  revert a. induction s as [|c' s IH]; intros a; [reflexivity|].
  rewrite append_cons. simpl. apply IH.
Qed.

(** The value of a string of [k] digits lies below [16^k]. *)
Lemma hex_value_from_bound (s : string) (a : Z) :
  all_chars is_hex_lower s = true → 0 ≤ a →
  a * 16 ^ Z.of_nat (String.length s) ≤ hex_value_from a s
  < (a + 1) * 16 ^ Z.of_nat (String.length s).
Proof.
  revert a. induction s as [|c s IH]; intros a Hs Ha.
  - simpl. lia.
  - simpl in Hs. apply andb_true_iff in Hs as [Hc Hs].
    apply hex_char_value_range in Hc.
    cbn [String.length hex_value_from].
    rewrite Nat2Z.inj_succ, Z.pow_succ_r by lia.
    specialize (IH (16 * a + hex_char_value c) Hs ltac:(lia)).
    assert (0 < 16 ^ Z.of_nat (String.length s)) by (apply Z.pow_pos_nonneg; lia).
    nia.
Qed.

Lemma hex_digits_aux_app (fuel : nat) (n : Z) (acc : string) :
  hex_digits_aux fuel n acc = hex_digits_aux fuel n EmptyString +:+ acc.
Proof.
  revert n acc. induction fuel as [|fuel IH]; intros n acc; [reflexivity|].
  simpl. destruct (n / 16 =? 0); [reflexivity|].
  rewrite (IH _ (String _ acc)), (IH _ (String _ EmptyString)).
  by rewrite append_assoc.
Qed.

Lemma pow2_succ (f : nat) : 2 ^ Z.of_nat (S f) = 2 * 2 ^ Z.of_nat f.
Proof. rewrite Nat2Z.inj_succ, Z.pow_succ_r; lia. Qed.

Lemma pow16_succ (k : nat) : 16 ^ Z.of_nat (S k) = 16 * 16 ^ Z.of_nat k.
Proof. rewrite Nat2Z.inj_succ, Z.pow_succ_r; lia. Qed.

(** With fuel for every bit of [n], the digits denote [n]. *)
Lemma hex_digits_aux_value (fuel : nat) (n : Z) :
  0 ≤ n < 2 ^ Z.of_nat fuel →
  hex_value_from 0 (hex_digits_aux fuel n EmptyString) = n.
Proof.
  revert n. induction fuel as [|fuel IH]; intros n Hn.
  - simpl in *. lia.
  - rewrite pow2_succ in Hn. simpl.
    pose proof (Z.div_mod n 16 ltac:(lia)) as Hdm.
    pose proof (Z.mod_pos_bound n 16 ltac:(lia)) as Hm.
    destruct (Z.eqb_spec (n / 16) 0) as [Hq | Hq].
    + simpl. rewrite hex_digit_value by lia. lia.
    + rewrite hex_digits_aux_app, hex_value_from_snoc.
      rewrite hex_digit_value by lia.
      rewrite IH; [lia|].
      split; [apply Z.div_pos | apply Z.div_lt_upper_bound]; lia.
Qed.

Lemma hex_digits_aux_lower (fuel : nat) (n : Z) (acc : string) :
  all_chars is_hex_lower (hex_digits_aux fuel n acc)
  = all_chars is_hex_lower acc.
Proof.
  revert n acc. induction fuel as [|fuel IH]; intros n acc; [reflexivity|].
  pose proof (Z.mod_pos_bound n 16 ltac:(lia)) as Hm.
  simpl. destruct (n / 16 =? 0).
  - simpl. by rewrite hex_digit_lower.
  - rewrite IH. simpl. by rewrite hex_digit_lower.
Qed.

(** A number below [16^k] takes at most [k] digits. *)
Lemma hex_digits_aux_length (fuel : nat) (n : Z) (k : nat) (acc : string) :
  (1 ≤ k)%nat → 0 ≤ n < 16 ^ Z.of_nat k →
  (String.length (hex_digits_aux fuel n acc) ≤ k + String.length acc)%nat.
Proof.
  revert n k acc. induction fuel as [|fuel IH]; intros n k acc Hk Hn.
  - simpl. lia.
  - simpl. destruct (Z.eqb_spec (n / 16) 0) as [Hq | Hq].
    + simpl. lia.
    + destruct k as [|k]; [lia|]. rewrite pow16_succ in Hn.
      assert (0 < n / 16 < 16 ^ Z.of_nat k) as Hq'.
      { split; [|apply Z.div_lt_upper_bound; lia].
        pose proof (Z.div_pos n 16 ltac:(lia) ltac:(lia)). lia. }
      assert (1 ≤ k)%nat.
      { destruct k; [simpl in Hq'; lia | lia]. }
      specialize (IH (n / 16) k (String (hex_digit (n mod 16)) acc)
                    ltac:(lia) ltac:(lia)).
      simpl in IH. lia.
Qed.

(** The first digit of a positive number is not zero. *)
Lemma hex_digits_aux_lead (fuel : nat) (n : Z) (acc : string) :
  0 < n < 2 ^ Z.of_nat fuel →
  ∃ c r, hex_digits_aux fuel n acc = String c r ∧ c ≠ "0"%char.
Proof.
  revert n acc. induction fuel as [|fuel IH]; intros n acc Hn.
  - simpl in Hn. lia.
  - rewrite pow2_succ in Hn. simpl.
    pose proof (Z.div_mod n 16 ltac:(lia)) as Hdm.
    pose proof (Z.mod_pos_bound n 16 ltac:(lia)) as Hm.
    destruct (Z.eqb_spec (n / 16) 0) as [Hq | Hq].
    + eexists _, _. split; [reflexivity|]. apply hex_digit_nonzero. lia.
    + apply IH. split; [|apply Z.div_lt_upper_bound; lia].
      pose proof (Z.div_pos n 16 ltac:(lia) ltac:(lia)). lia.
Qed.

Lemma fuel_enough (n : Z) :
  0 ≤ n → n < 2 ^ Z.of_nat (S (Z.to_nat (Z.log2 n))).
Proof.
  intros Hn. rewrite Nat2Z.inj_succ, Z2Nat.id by apply Z.log2_nonneg.
  destruct (Z.eq_dec n 0) as [-> | Hne]; [done|].
  apply Z.log2_spec. lia.
Qed.

Lemma line_of_nonneg (v : Z) : 0 ≤ v → line_of v = hex_digits v.
Proof.
  intros Hv. unfold line_of, hex.
  destruct (Z.ltb_spec v 0); [lia | reflexivity].
Qed.

Lemma hex_digits_nonempty (n : Z) : hex_digits n ≠ EmptyString.
Proof.
  unfold hex_digits. simpl. destruct (n / 16 =? 0); [done|].
  rewrite hex_digits_aux_app.
  destruct (hex_digits_aux _ _ EmptyString); done.
Qed.

Lemma hex_digits_matches (n : Z) : matches_hex_line (hex_digits n) = true.
Proof.
  pose proof (hex_digits_nonempty n) as Hne.
  unfold matches_hex_line. destruct (hex_digits n) eqn:E; [done|].
  rewrite <- E. unfold hex_digits. by rewrite hex_digits_aux_lower.
Qed.

(** Reading back the digits of [n] gives [n]. *)
Lemma parse_hex_digits (n : Z) : 0 ≤ n → parse_hex (hex_digits n) = Some n.
Proof.
  intros Hn. unfold parse_hex. rewrite hex_digits_matches. f_equal.
  apply hex_digits_aux_value. split; [done | by apply fuel_enough].
Qed.

Lemma hex_digits_length (n : Z) (k : nat) :
  (1 ≤ k)%nat → 0 ≤ n < 16 ^ Z.of_nat k →
  (String.length (hex_digits n) ≤ k)%nat.
Proof.
  intros Hk Hn. unfold hex_digits.
  pose proof (hex_digits_aux_length (S (Z.to_nat (Z.log2 n))) n k
                EmptyString Hk Hn) as H.
  simpl in H. simpl. lia.
Qed.

Lemma hex_digits_no_leading_zero (n : Z) :
  0 ≤ n → no_leading_zero (hex_digits n).
Proof.
  intros Hn. destruct (Z.eq_dec n 0) as [-> | Hne]; [by left|].
  right. apply hex_digits_aux_lead. split; [lia | by apply fuel_enough].
Qed.

(** No string of the class [[0-9a-f]+] that denotes [n] is shorter than
    the digits [hex] gives. *)
Lemma hex_digits_shortest (n : Z) (t : string) :
  parse_hex t = Some n →
  (String.length (hex_digits n) ≤ String.length t)%nat.
Proof.
  unfold parse_hex. destruct (matches_hex_line t) eqn:Hm; [|done].
  intros [= <-]. destruct t as [|c t]; [done|].
  unfold matches_hex_line in Hm.
  pose proof (hex_value_from_bound (String c t) 0 Hm ltac:(lia)) as Hb.
  apply hex_digits_length; [simpl; lia | lia].
Qed.

Lemma matches_not_0x (s : string) :
  matches_hex_line s = true → starts_with_0x s = false.
Proof.
  intros Hm. destruct (starts_with_0x s) eqn:E; [|done].
  destruct s as [|a [|b s]]; [done | |];
    destruct a as [[] [] [] [] [] [] [] []]; try discriminate E.
  destruct b as [[] [] [] [] [] [] [] []]; try discriminate E.
  discriminate Hm.
Qed.

Lemma matches_no_newline (s : string) :
  matches_hex_line s = true → all_chars not_newline s = true.
Proof.
  destruct s as [|c s]; [done|]. unfold matches_hex_line.
  apply all_chars_impl, hex_lower_not_newline.
Qed.

End HexFacts.

(** ** Facts about the run *)

Section RunFacts.

Lemma stimuli_length (w : World) (k : nat) : length (stimuli w k) = k.
Proof. unfold stimuli. by rewrite length_map, length_seq. Qed.

Lemma stimuli_range (w : World) (k : nat) :
  Forall (λ v, 0 ≤ v ≤ 4294967295) (stimuli w k).
Proof.
  unfold stimuli. apply Forall_map, Forall_forall. intros i _. simpl.
  pose proof (Z.mod_pos_bound (entropy w (drawn w + i)%nat) (2 ^ 32)
                ltac:(lia)).
  lia.
Qed.

Lemma stimuli_succ (w w1 : World) (k : nat) :
  entropy w1 = entropy w → drawn w1 = S (drawn w) →
  stimuli w (S k) = entropy w (drawn w) mod 2 ^ 32 :: stimuli w1 k.
Proof.
  intros He Hd. unfold stimuli. rewrite He, Hd.
  cbn [seq map]. rewrite Nat.add_0_r. f_equal.
  rewrite <- seq_shift, map_map. apply map_ext. intros i.
  by rewrite Nat.add_succ_r.
Qed.

Lemma randint_word (w : World) :
  randint 0 (2 ^ 32 - 1) w
  = (Ok (entropy w (drawn w) mod 2 ^ 32),
     mkWorld (fs w) (writable w) (opened w) (stdout w) (entropy w)
             (S (drawn w))).
Proof. reflexivity. Qed.

(** [stimuli] lists what the calls of [randint] return, in their order. *)
Lemma draw_stimuli (k : nat) (w : World) :
  fst (draw k w) = Ok (stimuli w k).
Proof.
  revert w. induction k as [|k IH]; intros w; [reflexivity|].
  cbn [draw]. unfold bind at 1. rewrite randint_word.
  unfold bind at 1.
  match goal with
  | |- context [draw k ?w1] =>
      specialize (IH w1);
      rewrite (stimuli_succ w w1 k eq_refl eq_refl);
      destruct (draw k w1) as [[vs | e] w2]
  end; cbn in IH |- *; congruence.
Qed.

Lemma write_stimulus_spec (f : string) (w : World) :
  f ∈ opened w →
  write_stimulus f w
  = (Ok tt,
     mkWorld (<[f := default EmptyString (fs w !! f)
                     +:+ line_of (entropy w (drawn w) mod 2 ^ 32)
                     +:+ String newline EmptyString]> (fs w))
             (writable w) (opened w) (stdout w) (entropy w)
             (S (drawn w))).
Proof.
  intros Hf. unfold write_stimulus, bind. rewrite randint_word.
  unfold write. cbn [opened fs writable stdout entropy drawn].
  destruct (decide (f ∈ opened w)); [reflexivity | done].
Qed.

(** The loop: every pass draws one value and appends its line. *)
Lemma for_each_write {A} (xs : list A) (f old : string) (w : World) :
  f ∈ opened w → fs w !! f = Some old →
  for_each xs (λ _, write_stimulus f) w
  = (Ok tt,
     mkWorld (<[f := old +:+ unlines (map line_of (stimuli w (length xs)))]>
                (fs w))
             (writable w) (opened w) (stdout w) (entropy w)
             (drawn w + length xs)).
Proof.
  revert old w. induction xs as [|x xs IH]; intros old w Hf Hold.
  - simpl. unfold ret. rewrite append_empty_r, insert_id by done.
    rewrite Nat.add_0_r. by destruct w.
  - cbn [for_each]. unfold bind at 1. rewrite write_stimulus_spec by done.
    rewrite Hold. cbn [default].
    rewrite (IH (old +:+ line_of (entropy w (drawn w) mod 2 ^ 32)
                     +:+ String newline EmptyString));
      [|done | by cbn; rewrite lookup_insert_eq].
    cbn [opened fs writable stdout entropy drawn length].
    rewrite insert_insert_eq.
    match goal with
    | |- context [stimuli ?w1 (length xs)] =>
        rewrite (stimuli_succ w w1 (length xs) eq_refl eq_refl)
    end.
    cbn [map unlines].
    rewrite !append_assoc, append_nil_cons, Nat.add_succ_r.
    reflexivity.
Qed.

Lemma length_range (n : Z) : length (range n) = Z.to_nat n.
Proof. unfold range. by rewrite length_map, length_seq. Qed.

Lemma generate_ok (n : Z) (path : string) (w : World) :
  writable w path = true →
  generate n path w = (Ok tt, after_generate w path (Z.to_nat n)).
Proof.
  intros Hw. unfold generate, with_open_w, bind, open_w. rewrite Hw.
  unfold finally.
  rewrite (for_each_write _ path EmptyString);
    [| cbn; set_solver | by cbn; rewrite lookup_insert_eq].
  unfold close, after_generate.
  cbn [opened fs writable stdout entropy drawn].
  by rewrite insert_insert_eq, append_nil, length_range.
Qed.

Lemma generate_unwritable (n : Z) (path : string) (w : World) :
  writable w path = false → generate n path w = (Raise OSError, w).
Proof.
  intros Hw. unfold generate, with_open_w, bind, open_w. by rewrite Hw.
Qed.

Lemma main_usage (argv : list string) (w : World) :
  length argv ≠ 3%nat →
  main argv w = (Raise (SystemExit 1), after_usage w).
Proof.
  intros Hlen. unfold main, bind, parse_args.
  destruct (Nat.eqb_spec (length argv) 3); [done | reflexivity].
Qed.

Lemma main_parse_error (prog a1 path : string) (w : World) :
  int a1 = None → main [prog; a1; path] w = (Raise ValueError, w).
Proof.
  intros Hint. unfold main, bind, parse_args, getitem, py_int. cbn.
  by rewrite Hint.
Qed.

Lemma main_parsed (prog a1 path : string) (n : Z) (w : World) :
  int a1 = Some n → main [prog; a1; path] w = generate n path w.
Proof.
  intros Hint. unfold main, bind, parse_args, getitem, py_int. cbn.
  rewrite Hint. cbn. by destruct (generate n path w) as [[] ?].
Qed.

Lemma run_ok (prog a1 path : string) (n : Z) (w : World) :
  int a1 = Some n → writable w path = true →
  run [prog; a1; path] w = (0, after_generate w path (Z.to_nat n)).
Proof.
  intros Hint Hw. unfold run.
  by rewrite (main_parsed _ _ _ n), generate_ok.
Qed.

(** A run that ends with status 0 had three arguments, a count that
    [int] accepts and a path that could be opened. *)
Lemma run_success_inv (argv : list string) (w : World) :
  fst (run argv w) = 0 →
  ∃ prog a1 path n,
    argv = [prog; a1; path] ∧ int a1 = Some n ∧ writable w path = true.
Proof.
  intros Hrun.
  destruct (decide (length argv = 3%nat)) as [Hlen | Hlen].
  - destruct argv as [|prog [|a1 [|path [|]]]]; try done.
    exists prog, a1, path.
    destruct (int a1) as [n|] eqn:Hint.
    + exists n. split; [done|]. split; [done|].
      destruct (writable w path) eqn:Hw; [done|].
      unfold run in Hrun.
      rewrite (main_parsed _ _ _ n), generate_unwritable in Hrun by done.
      done.
    + unfold run in Hrun. by rewrite main_parse_error in Hrun.
  - unfold run in Hrun. by rewrite main_usage in Hrun.
Qed.

Lemma line_of_stimulus (v : Z) :
  0 ≤ v ≤ 4294967295 →
  parse_hex (line_of v) = Some v
  ∧ matches_hex_line (line_of v) = true
  ∧ (String.length (line_of v) ≤ 8)%nat.
Proof.
  intros Hv. rewrite line_of_nonneg by lia.
  split; [apply parse_hex_digits; lia|].
  split; [apply hex_digits_matches|].
  apply hex_digits_length; [lia|]. change (16 ^ Z.of_nat 8) with 4294967296.
  lia.
Qed.

Lemma stimuli_lines_no_newline (w : World) (k : nat) :
  Forall (λ l, all_chars not_newline l = true)
         (map line_of (stimuli w k)).
Proof.
  apply Forall_map. eapply Forall_impl; [apply stimuli_range|].
  intros v Hv. apply matches_no_newline, line_of_stimulus, Hv.
Qed.

(** Reading the written file line by line gives back the lines. *)
Lemma split_lines_written (w : World) (k : nat) :
  split_lines (unlines (map line_of (stimuli w k)))
  = map line_of (stimuli w k).
Proof. apply split_lines_unlines, stimuli_lines_no_newline. Qed.

End RunFacts.

(** ** The builtins on some inputs *)

Example int_plain : int "42" = Some 42.
Proof. reflexivity. Qed.

Example int_leading_zeros : int "0010" = Some 10.
Proof. reflexivity. Qed.

Example int_negative : int "-1_0" = Some (-10).
Proof. reflexivity. Qed.

Example int_rejects_double_underscore : int "1__0" = None.
Proof. reflexivity. Qed.

Example int_rejects_blank_after_sign : int "+ 1" = None.
Proof. reflexivity. Qed.

Example int_rejects_empty : int EmptyString = None.
Proof. reflexivity. Qed.

Example int_rejects_hex : int "0x10" = None.
Proof. reflexivity. Qed.

Example hex_zero : hex 0 = "0x0".
Proof. reflexivity. Qed.

Example hex_byte : hex 255 = "0xff".
Proof. reflexivity. Qed.

Example hex_top : hex 4294967295 = "0xffffffff".
Proof. reflexivity. Qed.

Example hex_negative : hex (-4096) = "-0x1000".
Proof. reflexivity. Qed.

Example range_negative : range (-3) = [].
Proof. reflexivity. Qed.

Example run_three :
  run ["gen_stimuli.py"; "3"; "out.txt"] Sample.fresh
  = (0, after_generate Sample.fresh "out.txt" 3)
  ∧ fs (after_generate Sample.fresh "out.txt" 3) !! "out.txt"
    = Some (unlines ["12345678"; "b06bd029"; "4ea349da"]).
Proof. split; vm_compute; reflexivity. Qed.

(** ** The properties of the script *)

(** C1. With a count that is not negative and a path that can be opened
    for writing, the run ends with status 0 and the file holds one line
    per generated value, in the order the values were drawn: [count]
    lines in all. *)
Theorem output_line_count (prog a1 path : string) (count : Z) (w : World) :
  int a1 = Some count → 0 ≤ count → writable w path = true →
  fst (run [prog; a1; path] w) = 0
  ∧ ∃ content,
      fs (snd (run [prog; a1; path] w)) !! path = Some content
      ∧ split_lines content = map line_of (stimuli w (Z.to_nat count))
      ∧ Z.of_nat (length (split_lines content)) = count.
Proof.
  intros Hint Hcount Hw. rewrite (run_ok _ _ _ count) by done.
  split; [reflexivity|].
  exists (unlines (map line_of (stimuli w (Z.to_nat count)))).
  cbn [snd after_generate fs]. rewrite lookup_insert_eq.
  rewrite split_lines_written, length_map, stimuli_length.
  repeat split. lia.
Qed.

Lemma output_line_count_witness :
  int "3" = Some 3 ∧ 0 ≤ 3 ∧ writable Sample.fresh "out.txt" = true
  ∧ fst (run ["gen_stimuli.py"; "3"; "out.txt"] Sample.fresh) = 0
  ∧ ∃ content,
      fs (snd (run ["gen_stimuli.py"; "3"; "out.txt"] Sample.fresh))
        !! "out.txt" = Some content
      ∧ split_lines content = map line_of (stimuli Sample.fresh (Z.to_nat 3))
      ∧ Z.of_nat (length (split_lines content)) = 3.
Proof.
  split; [reflexivity|]. split; [lia|]. split; [reflexivity|].
  apply (output_line_count "gen_stimuli.py" "3" "out.txt" 3 Sample.fresh);
    [reflexivity | lia | reflexivity].
Defined.

(** C2. After a run that ended with status 0, every line of the output
    file matches [^[0-9a-f]+$] and, read in base sixteen, denotes a number
    from 0 to 4294967295. *)
Theorem lines_are_hex_words
    (argv : list string) (w : World) (path content : string) :
  fst (run argv w) = 0 → argv !! 2%nat = Some path →
  fs (snd (run argv w)) !! path = Some content →
  Forall (λ l, matches_hex_line l = true
               ∧ ∃ v, parse_hex l = Some v ∧ 0 ≤ v ≤ 4294967295)
         (split_lines content).
Proof.
  intros Hrun Hpath Hcontent.
  destruct (run_success_inv _ _ Hrun) as (prog & a1 & p & n & -> & Hint & Hw).
  injection Hpath as ->.
  rewrite (run_ok _ _ _ n) in Hcontent by done.
  cbn [snd after_generate fs] in Hcontent.
  rewrite lookup_insert_eq in Hcontent. injection Hcontent as <-.
  rewrite split_lines_written. apply Forall_map.
  eapply Forall_impl; [apply stimuli_range|].
  intros v Hv. cbn beta.
  destruct (line_of_stimulus v Hv) as (Hparse & Hmatch & _). eauto.
Qed.

Lemma lines_are_hex_words_witness :
  Forall (λ l, matches_hex_line l = true
               ∧ ∃ v, parse_hex l = Some v ∧ 0 ≤ v ≤ 4294967295)
         (split_lines (unlines ["12345678"; "b06bd029"; "4ea349da"])).
Proof.
  apply (lines_are_hex_words ["gen_stimuli.py"; "3"; "out.txt"]
           Sample.fresh "out.txt");
    vm_compute; reflexivity.
Defined.

(** C3. After a run that ended with status 0 the file is the lines of the
    drawn values, each followed by one line feed, the last one too.  A
    line is the value in lower-case base sixteen digits and nothing else:
    it does not start with ["0x"], holds no line feed, has no leading zero
    (the value 0 is the digit ["0"]), and no string of such digits that
    denotes the same value is shorter. *)
Theorem lines_shortest_hex_then_newline
    (prog a1 path : string) (count : Z) (w : World) :
  int a1 = Some count → fst (run [prog; a1; path] w) = 0 →
  let lines := map line_of (stimuli w (Z.to_nat count)) in
  fs (snd (run [prog; a1; path] w)) !! path = Some (unlines lines)
  ∧ (∀ (ls : list string) (l : string), lines = (ls ++ [l])%list →
       unlines lines = unlines ls +:+ l +:+ String newline EmptyString)
  ∧ Forall (λ v, parse_hex (line_of v) = Some v
                 ∧ starts_with_0x (line_of v) = false
                 ∧ all_chars not_newline (line_of v) = true
                 ∧ no_leading_zero (line_of v)
                 ∧ ∀ t, parse_hex t = Some v →
                        (String.length (line_of v) ≤ String.length t)%nat)
           (stimuli w (Z.to_nat count)).
Proof.
  intros Hint Hrun lines.
  destruct (run_success_inv _ _ Hrun) as (? & ? & ? & n & [= <- <- <-] & Hn & Hw).
  rewrite (run_ok _ _ _ count) by done.
  cbn [snd after_generate fs]. rewrite lookup_insert_eq.
  split; [reflexivity|]. split.
  - intros ls l ->. clear. induction ls as [|x ls IH]; [reflexivity|].
    cbn [app unlines]. by rewrite IH, append_assoc.
  - eapply Forall_impl; [apply stimuli_range|].
    intros v Hv. cbn beta in Hv |- *.
    destruct (line_of_stimulus v Hv) as (Hparse & Hmatch & _).
    split; [done|]. split; [by apply matches_not_0x|].
    split; [by apply matches_no_newline|].
    rewrite line_of_nonneg by lia.
    split; [apply hex_digits_no_leading_zero; lia|].
    apply hex_digits_shortest.
Qed.

Lemma lines_shortest_hex_then_newline_witness :
  int "3" = Some 3
  ∧ fst (run ["gen_stimuli.py"; "3"; "out.txt"] Sample.used) = 0
  ∧ fs (snd (run ["gen_stimuli.py"; "3"; "out.txt"] Sample.used)) !! "out.txt"
    = Some (unlines (map line_of (stimuli Sample.used (Z.to_nat 3)))).
Proof.
  split; [reflexivity|]. split; [vm_compute; reflexivity|].
  apply (lines_shortest_hex_then_newline
           "gen_stimuli.py" "3" "out.txt" 3 Sample.used);
    vm_compute; reflexivity.
Defined.

(** C4. When the arguments after the program name are not exactly two,
    the script prints [Usage: gen_stimuli.py RESERVOIR_SIZE FILE_NAME],
    ends with status 1, and leaves every file as it was: nothing is
    created, changed or opened. *)
Theorem wrong_argument_count_usage (argv : list string) (w : World) :
  length (tail argv) ≠ 2%nat →
  fst (run argv w) = 1
  ∧ fst (run argv w) ≠ 0
  ∧ stdout (snd (run argv w))
    = stdout w +:+ "Usage: " +:+ "gen_stimuli.py"
               +:+ " RESERVOIR_SIZE FILE_NAME" +:+ String newline EmptyString
  ∧ fs (snd (run argv w)) = fs w
  ∧ opened (snd (run argv w)) = opened w.
Proof.
  intros Hlen. unfold run. rewrite main_usage.
  - cbn. repeat split; done.
  - destruct argv; simpl in *; lia.
Qed.

Lemma wrong_argument_count_usage_witness :
  length (tail ["gen_stimuli.py"; "3"]) ≠ 2%nat
  ∧ fst (run ["gen_stimuli.py"; "3"] Sample.used) = 1.
Proof.
  split; [simpl; lia|].
  apply (wrong_argument_count_usage ["gen_stimuli.py"; "3"] Sample.used).
  simpl; lia.
Defined.

(** C5. When [int] rejects the first argument, [ValueError] leaves the
    script uncaught, the status is not 0, and the world is the one the
    script started in: the file was never opened, so nothing was created
    or emptied. *)
Theorem parse_failure_touches_no_file (prog a1 path : string) (w : World) :
  int a1 = None →
  main [prog; a1; path] w = (Raise ValueError, w)
  ∧ fst (run [prog; a1; path] w) ≠ 0
  ∧ snd (run [prog; a1; path] w) = w
  ∧ fs (snd (run [prog; a1; path] w)) !! path = fs w !! path.
Proof.
  intros Hint. unfold run. rewrite main_parse_error by done.
  cbn. repeat split; done.
Qed.

Lemma parse_failure_touches_no_file_witness :
  int "ten" = None
  ∧ fs (snd (run ["gen_stimuli.py"; "ten"; "out.txt"] Sample.used))
      !! "out.txt" = Some "deadbeef".
Proof.
  split; [reflexivity|].
  destruct (parse_failure_touches_no_file
              "gen_stimuli.py" "ten" "out.txt" Sample.used eq_refl)
    as (_ & _ & _ & ->).
  reflexivity.
Defined.

(** C6. With the count 0 and a path that can be opened for writing, the
    run ends with status 0 and the file is empty: it has no line. *)
Theorem zero_count_empty_file (prog a1 path : string) (w : World) :
  int a1 = Some 0 → writable w path = true →
  fst (run [prog; a1; path] w) = 0
  ∧ fs (snd (run [prog; a1; path] w)) !! path = Some EmptyString
  ∧ split_lines EmptyString = [].
Proof.
  intros Hint Hw. rewrite (run_ok _ _ _ 0) by done.
  cbn [fst snd after_generate fs]. rewrite lookup_insert_eq.
  repeat split.
Qed.

Lemma zero_count_empty_file_witness :
  int "0" = Some 0 ∧ writable Sample.used "out.txt" = true
  ∧ fst (run ["gen_stimuli.py"; "0"; "out.txt"] Sample.used) = 0
  ∧ fs (snd (run ["gen_stimuli.py"; "0"; "out.txt"] Sample.used)) !! "out.txt"
    = Some EmptyString
  ∧ split_lines EmptyString = [].
Proof.
  split; [reflexivity|]. split; [reflexivity|].
  apply (zero_count_empty_file "gen_stimuli.py" "0" "out.txt" Sample.used);
    reflexivity.
Defined.

(** C7. After a run that ended with status 0 the path holds the newly
    written lines and nothing else, whether or not a file was there
    before; the other files are as they were; and what the path holds
    does not depend on the files the run started with. *)
Theorem output_created_or_truncated
    (prog a1 path : string) (count : Z) (w : World) :
  int a1 = Some count → fst (run [prog; a1; path] w) = 0 →
  fs (snd (run [prog; a1; path] w)) !! path
  = Some (unlines (map line_of (stimuli w (Z.to_nat count))))
  ∧ (∀ other, other ≠ path →
       fs (snd (run [prog; a1; path] w)) !! other = fs w !! other)
  ∧ (∀ w2, entropy w2 = entropy w → drawn w2 = drawn w →
       fst (run [prog; a1; path] w2) = 0 →
       fs (snd (run [prog; a1; path] w2)) !! path
       = fs (snd (run [prog; a1; path] w)) !! path).
Proof.
  intros Hint Hrun.
  destruct (run_success_inv _ _ Hrun) as (? & ? & ? & n & [= <- <- <-] & Hn & Hw).
  rewrite (run_ok _ _ _ count) by done.
  cbn [snd after_generate fs]. rewrite lookup_insert_eq.
  split; [reflexivity|]. split.
  - intros other Hne. by rewrite lookup_insert_ne.
  - intros w2 He Hd Hrun2.
    destruct (run_success_inv _ _ Hrun2)
      as (? & ? & ? & n2 & [= <- <- <-] & Hn2 & Hw2).
    rewrite (run_ok _ _ _ count) by done.
    cbn [snd after_generate fs]. rewrite lookup_insert_eq.
    unfold stimuli. by rewrite He, Hd.
Qed.

Lemma output_created_or_truncated_witness :
  int "2" = Some 2
  ∧ fst (run ["gen_stimuli.py"; "2"; "out.txt"] Sample.used) = 0
  ∧ fs Sample.used !! "out.txt" = Some "deadbeef"
  ∧ fs (snd (run ["gen_stimuli.py"; "2"; "out.txt"] Sample.used)) !! "out.txt"
    = Some (unlines (map line_of (stimuli Sample.used (Z.to_nat 2)))).
Proof.
  split; [reflexivity|]. split; [vm_compute; reflexivity|].
  split; [vm_compute; reflexivity|].
  apply (output_created_or_truncated
           "gen_stimuli.py" "2" "out.txt" 2 Sample.used);
    vm_compute; reflexivity.
Defined.

(** C8. After a run that ended with status 0, no line of the output file
    is longer than 8 digits. *)
Theorem lines_at_most_eight_digits
    (argv : list string) (w : World) (path content : string) :
  fst (run argv w) = 0 → argv !! 2%nat = Some path →
  fs (snd (run argv w)) !! path = Some content →
  Forall (λ l, (String.length l ≤ 8)%nat ∧ all_chars is_hex_lower l = true)
         (split_lines content).
Proof.
  intros Hrun Hpath Hcontent.
  destruct (run_success_inv _ _ Hrun) as (prog & a1 & p & n & -> & Hint & Hw).
  injection Hpath as ->.
  rewrite (run_ok _ _ _ n) in Hcontent by done.
  cbn [snd after_generate fs] in Hcontent.
  rewrite lookup_insert_eq in Hcontent. injection Hcontent as <-.
  rewrite split_lines_written. apply Forall_map.
  eapply Forall_impl; [apply stimuli_range|].
  intros v Hv. cbn beta in Hv |- *.
  destruct (line_of_stimulus v Hv) as (_ & Hmatch & Hlen).
  split; [done|].
  unfold matches_hex_line in Hmatch. by destruct (line_of v).
Qed.

Lemma lines_at_most_eight_digits_witness :
  Forall (λ l, (String.length l ≤ 8)%nat ∧ all_chars is_hex_lower l = true)
         (split_lines (unlines ["12345678"; "b06bd029"; "4ea349da"])).
Proof.
  apply (lines_at_most_eight_digits ["gen_stimuli.py"; "3"; "out.txt"]
           Sample.fresh "out.txt");
    vm_compute; reflexivity.
Defined.

(** C9. With a negative count and a path that can be opened for writing,
    nothing is reported: the run ends with status 0, prints nothing, and
    leaves an empty file, the very outcome of the count 0. *)
Theorem negative_count_as_zero
    (prog a1 a0 path : string) (n : Z) (w : World) :
  int a1 = Some n → n < 0 → int a0 = Some 0 → writable w path = true →
  fst (run [prog; a1; path] w) = 0
  ∧ fs (snd (run [prog; a1; path] w)) !! path = Some EmptyString
  ∧ stdout (snd (run [prog; a1; path] w)) = stdout w
  ∧ run [prog; a1; path] w = run [prog; a0; path] w.
Proof.
  intros Hint Hneg Hzero Hw.
  rewrite (run_ok _ _ _ n), (run_ok _ _ _ 0) by done.
  replace (Z.to_nat n) with (Z.to_nat 0) by lia.
  cbn [fst snd after_generate fs stdout]. rewrite lookup_insert_eq.
  repeat split.
Qed.

Lemma negative_count_as_zero_witness :
  int "-5" = Some (-5) ∧ -5 < 0 ∧ int "0" = Some 0
  ∧ writable Sample.used "out.txt" = true
  ∧ fst (run ["gen_stimuli.py"; "-5"; "out.txt"] Sample.used) = 0
  ∧ fs (snd (run ["gen_stimuli.py"; "-5"; "out.txt"] Sample.used))
      !! "out.txt" = Some EmptyString
  ∧ stdout (snd (run ["gen_stimuli.py"; "-5"; "out.txt"] Sample.used))
    = stdout Sample.used
  ∧ run ["gen_stimuli.py"; "-5"; "out.txt"] Sample.used
    = run ["gen_stimuli.py"; "0"; "out.txt"] Sample.used.
Proof.
  split; [reflexivity|]. split; [lia|]. split; [reflexivity|].
  split; [reflexivity|].
  apply (negative_count_as_zero
           "gen_stimuli.py" "-5" "0" "out.txt" (-5) Sample.used);
    [reflexivity | lia | reflexivity | reflexivity].
Defined.

(** C10. [int] takes more than strings of digits: [" 10 "], ["+10"] and
    ["1_0"] are not strings of digits, yet each is read as 10, and with a
    path that can be opened for writing the run ends with status 0 and
    writes its ten lines. *)
Theorem int_accepts_decorated_counts (prog path s : string) (w : World) :
  s = " 10 " ∨ s = "+10" ∨ s = "1_0" →
  writable w path = true →
  all_chars is_digit s = false
  ∧ int s = Some 10
  ∧ fst (run [prog; s; path] w) = 0
  ∧ ∃ content,
      fs (snd (run [prog; s; path] w)) !! path = Some content
      ∧ length (split_lines content) = 10%nat.
Proof.
  intros Hs Hw.
  assert (all_chars is_digit s = false ∧ int s = Some 10) as [Hd Hint].
  { destruct Hs as [-> | [-> | ->]]; split; reflexivity. }
  split; [done|]. split; [done|].
  rewrite (run_ok _ _ _ 10) by done.
  split; [reflexivity|].
  eexists. cbn [snd after_generate fs]. rewrite lookup_insert_eq.
  split; [reflexivity|].
  by rewrite split_lines_written, length_map, stimuli_length.
Qed.

Lemma int_accepts_decorated_counts_witness :
  (" 10 " = " 10 " ∨ " 10 " = "+10" ∨ " 10 " = "1_0")
  ∧ writable Sample.fresh "out.txt" = true
  ∧ all_chars is_digit " 10 " = false
  ∧ int " 10 " = Some 10
  ∧ fst (run ["gen_stimuli.py"; " 10 "; "out.txt"] Sample.fresh) = 0
  ∧ ∃ content,
      fs (snd (run ["gen_stimuli.py"; " 10 "; "out.txt"] Sample.fresh))
        !! "out.txt" = Some content
      ∧ length (split_lines content) = 10%nat.
Proof.
  split; [left; reflexivity|]. split; [reflexivity|].
  apply (int_accepts_decorated_counts
           "gen_stimuli.py" "out.txt" " 10 " Sample.fresh);
    [left; reflexivity | reflexivity].
Defined.

(** ** Further properties of the run *)

Section RunCases.

(** The four ways a run can go. *)
Lemma run_cases (argv : list string) (w : World) :
  (length argv ≠ 3%nat ∧ run argv w = (1, after_usage w))
  ∨ (∃ prog a1 path,
       argv = [prog; a1; path] ∧ int a1 = None ∧ run argv w = (1, w))
  ∨ (∃ prog a1 path n,
       argv = [prog; a1; path] ∧ int a1 = Some n
       ∧ writable w path = false ∧ run argv w = (1, w))
  ∨ (∃ prog a1 path n,
       argv = [prog; a1; path] ∧ int a1 = Some n
       ∧ writable w path = true
       ∧ run argv w = (0, after_generate w path (Z.to_nat n))).
Proof.
  destruct (decide (length argv = 3%nat)) as [Hlen | Hlen].
  - destruct argv as [|prog [|a1 [|path [|]]]]; try done.
    right. destruct (int a1) as [n|] eqn:Hint.
    + right. destruct (writable w path) eqn:Hw.
      * right. exists prog, a1, path, n. by rewrite (run_ok _ _ _ n).
      * left. exists prog, a1, path, n. repeat split; try done.
        unfold run. by rewrite (main_parsed _ _ _ n), generate_unwritable.
    + left. exists prog, a1, path. repeat split; try done.
      unfold run. by rewrite main_parse_error.
  - left. split; [done|]. unfold run. by rewrite main_usage.
Qed.

Lemma append_same_empty (s t : string) : s +:+ t = s → t = EmptyString.
Proof.
  intros H. apply (f_equal String.length) in H.
  rewrite length_append in H. destruct t; [done | simpl in H; lia].
Qed.

Lemma unlines_app (l1 l2 : list string) :
  unlines (l1 ++ l2)%list = unlines l1 +:+ unlines l2.
Proof.
  induction l1 as [|l l1 IH]; [reflexivity|].
  cbn [app unlines]. by rewrite IH, append_assoc.
Qed.

Lemma unlines_length_bounds (ls : list string) :
  Forall (λ l, (1 ≤ String.length l ≤ 8)%nat) ls →
  (2 * length ls ≤ String.length (unlines ls) ≤ 9 * length ls)%nat.
Proof.
  induction 1 as [|l ls Hl _ IH]; [simpl; lia|].
  cbn [unlines length]. rewrite length_append. cbn [String.length]. lia.
Qed.

End RunCases.




(** X3. When the path cannot be opened for writing, [OSError] leaves the
    script uncaught and the status is 1; the file that may be at the
    path keeps its text, and nothing is printed. *)
Theorem unwritable_path_oserror
    (prog a1 path : string) (n : Z) (w : World) :
  int a1 = Some n → writable w path = false →
  main [prog; a1; path] w = (Raise OSError, w)
  ∧ fst (run [prog; a1; path] w) = 1
  ∧ fs (snd (run [prog; a1; path] w)) !! path = fs w !! path
  ∧ stdout (snd (run [prog; a1; path] w)) = stdout w.
Proof.
  intros Hint Hw. unfold run.
  rewrite (main_parsed _ _ _ n), generate_unwritable by done.
  repeat split.
Qed.

Lemma unwritable_path_oserror_witness :
  int "4" = Some 4 ∧ writable Sample.locked "out.txt" = false
  ∧ main ["gen_stimuli.py"; "4"; "out.txt"] Sample.locked
    = (Raise OSError, Sample.locked)
  ∧ fst (run ["gen_stimuli.py"; "4"; "out.txt"] Sample.locked) = 1
  ∧ fs (snd (run ["gen_stimuli.py"; "4"; "out.txt"] Sample.locked))
      !! "out.txt" = fs Sample.locked !! "out.txt"
  ∧ stdout (snd (run ["gen_stimuli.py"; "4"; "out.txt"] Sample.locked))
    = stdout Sample.locked.
Proof.
  split; [reflexivity|]. split; [reflexivity|].
  apply (unwritable_path_oserror
           "gen_stimuli.py" "4" "out.txt" 4 Sample.locked);
    reflexivity.
Defined.

(** X4. After a run that ended with status 0 the handle of the output
    file is closed, and the handles that were open before are the ones
    still open, but for one of the output path itself. *)
Theorem output_handle_closed
    (argv : list string) (w : World) (path : string) :
  fst (run argv w) = 0 → argv !! 2%nat = Some path →
  (path ∉ opened (snd (run argv w)))
  ∧ opened (snd (run argv w)) = opened w ∖ {[path]}.
Proof.
  intros Hrun Hpath.
  destruct (run_success_inv _ _ Hrun) as (prog & a1 & p & n & -> & Hint & Hw).
  injection Hpath as ->.
  rewrite (run_ok _ _ _ n) by done.
  cbn [snd after_generate opened]. clear. split.
  - rewrite elem_of_difference, elem_of_singleton. tauto.
  - apply set_eq. intros x.
    rewrite !elem_of_difference, elem_of_union, elem_of_singleton. tauto.
Qed.

Lemma output_handle_closed_witness :
  fst (run ["gen_stimuli.py"; "2"; "out.txt"] Sample.used) = 0
  ∧ ("out.txt" ∉ opened (snd (run ["gen_stimuli.py"; "2"; "out.txt"]
                                  Sample.used))).
Proof.
  split; [vm_compute; reflexivity|].
  apply (output_handle_closed
           ["gen_stimuli.py"; "2"; "out.txt"] Sample.used "out.txt");
    vm_compute; reflexivity.
Defined.

(** X5. A run that ended with status 0 drew one random value per line of
    the file, and that number is the count, or 0 for a negative count. *)
Theorem one_draw_per_line (prog a1 path : string) (count : Z) (w : World) :
  int a1 = Some count → fst (run [prog; a1; path] w) = 0 →
  ∃ content,
    fs (snd (run [prog; a1; path] w)) !! path = Some content
    ∧ Z.of_nat (length (split_lines content)) = Z.max count 0
    ∧ (drawn (snd (run [prog; a1; path] w))
       = drawn w + length (split_lines content))%nat.
Proof.
  intros Hint Hrun.
  destruct (run_success_inv _ _ Hrun) as (? & ? & ? & n & [= <- <- <-] & Hn & Hw).
  rewrite (run_ok _ _ _ count) by done.
  cbn [snd after_generate fs drawn]. eexists.
  rewrite lookup_insert_eq. split; [reflexivity|].
  rewrite split_lines_written, length_map, stimuli_length. lia.
Qed.

Lemma one_draw_per_line_witness :
  int "3" = Some 3
  ∧ fst (run ["gen_stimuli.py"; "3"; "out.txt"] Sample.used) = 0
  ∧ ∃ content,
      fs (snd (run ["gen_stimuli.py"; "3"; "out.txt"] Sample.used))
        !! "out.txt" = Some content
      ∧ Z.of_nat (length (split_lines content)) = Z.max 3 0
      ∧ (drawn (snd (run ["gen_stimuli.py"; "3"; "out.txt"] Sample.used))
         = drawn Sample.used + length (split_lines content))%nat.
Proof.
  split; [reflexivity|]. split; [vm_compute; reflexivity|].
  apply (one_draw_per_line "gen_stimuli.py" "3" "out.txt" 3 Sample.used);
    vm_compute; reflexivity.
Defined.

Section MoreFacts.

Lemma map_ext_Forall {A B} (P : A → Prop) (f g : A → B) (l : list A) :
  Forall P l → (∀ x, P x → f x = g x) → map f l = map g l.
Proof.
  intros Hl Hfg. induction Hl as [|x l Hx _ IH]; [reflexivity|].
  cbn [map]. by rewrite IH, (Hfg x Hx).
Qed.

Lemma stimuli_app (w : World) (k d : nat) :
  ∃ more, stimuli w (k + d) = (stimuli w k ++ more)%list.
Proof.
  unfold stimuli. rewrite seq_app, map_app. eauto.
Qed.

Lemma stimuli_line_lengths (w : World) (k : nat) :
  Forall (λ l, (1 ≤ String.length l ≤ 8)%nat) (map line_of (stimuli w k)).
Proof.
  apply Forall_map. eapply Forall_impl; [apply stimuli_range|].
  intros v Hv. cbn beta in Hv |- *.
  destruct (line_of_stimulus v Hv) as (_ & Hmatch & Hlen).
  split; [|done]. destruct (line_of v); [done | simpl; lia].
Qed.

End MoreFacts.

(** X6. After a run that ended with status 0, reading the file line by
    line and each line as a number in base sixteen gives back the drawn
    values, in their order. *)
Theorem file_reads_back_values
    (prog a1 path : string) (count : Z) (w : World) :
  int a1 = Some count → fst (run [prog; a1; path] w) = 0 →
  ∃ content,
    fs (snd (run [prog; a1; path] w)) !! path = Some content
    ∧ map parse_hex (split_lines content)
      = map Some (stimuli w (Z.to_nat count))
    ∧ fst (draw (Z.to_nat count) w) = Ok (stimuli w (Z.to_nat count)).
Proof.
  intros Hint Hrun.
  destruct (run_success_inv _ _ Hrun) as (? & ? & ? & n & [= <- <- <-] & Hn & Hw).
  rewrite (run_ok _ _ _ count) by done.
  cbn [snd after_generate fs]. eexists.
  rewrite lookup_insert_eq. split; [reflexivity|].
  split; [|apply draw_stimuli].
  rewrite split_lines_written, map_map.
  apply (map_ext_Forall _ _ _ _ (stimuli_range w _)).
  intros v Hv. by apply line_of_stimulus.
Qed.

Lemma file_reads_back_values_witness :
  int "3" = Some 3
  ∧ fst (run ["gen_stimuli.py"; "3"; "out.txt"] Sample.used) = 0
  ∧ ∃ content,
      fs (snd (run ["gen_stimuli.py"; "3"; "out.txt"] Sample.used))
        !! "out.txt" = Some content
      ∧ map parse_hex (split_lines content)
        = map Some (stimuli Sample.used (Z.to_nat 3))
      ∧ fst (draw (Z.to_nat 3) Sample.used)
        = Ok (stimuli Sample.used (Z.to_nat 3)).
Proof.
  split; [reflexivity|]. split; [vm_compute; reflexivity|].
  apply (file_reads_back_values "gen_stimuli.py" "3" "out.txt" 3 Sample.used);
    vm_compute; reflexivity.
Defined.

(** X7. After a run that ended with status 0, a file of [k] lines holds
    at least [2 * k] and at most [9 * k] characters: one to eight digits
    and a line feed for each line. *)
Theorem file_size_bounds (prog a1 path : string) (count : Z) (w : World) :
  int a1 = Some count → fst (run [prog; a1; path] w) = 0 →
  ∃ content,
    fs (snd (run [prog; a1; path] w)) !! path = Some content
    ∧ (2 * length (split_lines content) ≤ String.length content)%nat
    ∧ (String.length content ≤ 9 * length (split_lines content))%nat.
Proof.
  intros Hint Hrun.
  destruct (run_success_inv _ _ Hrun) as (? & ? & ? & n & [= <- <- <-] & Hn & Hw).
  rewrite (run_ok _ _ _ count) by done.
  cbn [snd after_generate fs]. eexists.
  rewrite lookup_insert_eq. split; [reflexivity|].
  rewrite split_lines_written.
  apply unlines_length_bounds, stimuli_line_lengths.
Qed.

Lemma file_size_bounds_witness :
  int "3" = Some 3
  ∧ fst (run ["gen_stimuli.py"; "3"; "out.txt"] Sample.used) = 0
  ∧ ∃ content,
      fs (snd (run ["gen_stimuli.py"; "3"; "out.txt"] Sample.used))
        !! "out.txt" = Some content
      ∧ (2 * length (split_lines content) ≤ String.length content)%nat
      ∧ (String.length content ≤ 9 * length (split_lines content))%nat.
Proof.
  split; [reflexivity|]. split; [vm_compute; reflexivity|].
  apply (file_size_bounds "gen_stimuli.py" "3" "out.txt" 3 Sample.used);
    vm_compute; reflexivity.
Defined.

(** X8. The script prints to the standard output exactly when the number
    of arguments is wrong: with three arguments nothing is printed,
    whether the run succeeds or not. *)
Theorem prints_only_on_wrong_argument_count
    (argv : list string) (w : World) :
  stdout (snd (run argv w)) = stdout w ↔ length argv = 3%nat.
Proof.
  destruct (run_cases argv w)
    as [[Hlen Hr] | [(? & ? & ? & -> & _ & Hr)
       | [(? & ? & ? & ? & -> & _ & _ & Hr)
         | (? & ? & ? & ? & -> & _ & _ & Hr)]]];
    rewrite Hr; cbn [snd after_usage after_generate stdout]; try done.
  split; [|done]. intros H%append_same_empty. discriminate H.
Qed.

(** X9. With the same entropy source, the file written for a larger
    count starts with the file written for a smaller one: a line does
    not depend on how many lines follow it. *)
Theorem larger_count_extends_file
    (prog a1 a2 path : string) (c1 c2 : Z) (w : World) :
  int a1 = Some c1 → int a2 = Some c2 → c1 ≤ c2 →
  writable w path = true →
  ∃ content1 content2 rest,
    fs (snd (run [prog; a1; path] w)) !! path = Some content1
    ∧ fs (snd (run [prog; a2; path] w)) !! path = Some content2
    ∧ content2 = content1 +:+ rest.
Proof.
  intros H1 H2 Hle Hw.
  rewrite (run_ok _ _ _ c1), (run_ok _ _ _ c2) by done.
  cbn [snd after_generate fs]. rewrite !lookup_insert_eq.
  replace (Z.to_nat c2)
    with (Z.to_nat c1 + (Z.to_nat c2 - Z.to_nat c1))%nat by lia.
  destruct (stimuli_app w (Z.to_nat c1) (Z.to_nat c2 - Z.to_nat c1))
    as [more ->].
  eexists _, _, (unlines (map line_of more)).
  split; [reflexivity|]. split; [reflexivity|].
  by rewrite map_app, unlines_app.
Qed.

Lemma larger_count_extends_file_witness :
  int "2" = Some 2 ∧ int "5" = Some 5 ∧ 2 ≤ 5
  ∧ writable Sample.fresh "out.txt" = true
  ∧ ∃ content1 content2 rest,
      fs (snd (run ["gen_stimuli.py"; "2"; "out.txt"] Sample.fresh))
        !! "out.txt" = Some content1
      ∧ fs (snd (run ["gen_stimuli.py"; "5"; "out.txt"] Sample.fresh))
          !! "out.txt" = Some content2
      ∧ content2 = content1 +:+ rest.
Proof.
  split; [reflexivity|]. split; [reflexivity|]. split; [lia|].
  split; [reflexivity|].
  apply (larger_count_extends_file
           "gen_stimuli.py" "2" "5" "out.txt" 2 5 Sample.fresh);
    [reflexivity | reflexivity | lia | reflexivity].
Defined.

(** ** Facts about [int] *)

Section IntFacts.








Lemma digit_not_underscore (c : ascii) :
  is_digit c = true → Ascii.eqb c "_" = false.
Proof.
  intros Hc. destruct (Ascii.eqb_spec c "_") as [-> |]; [|done].
  vm_compute in Hc. discriminate Hc.
Qed.






End IntFacts.






